(** * aio_run_in_process: the child process (_child.py)

    A shallow embedding of the worker side of aio-run-in-process: the
    state messages written to the parent, the race between the task and
    the SIGINT / SIGTERM flags, and the exit status of the process.

    Conventions of the model.
    - The stream [to_parent] is the list of the writes made so far; every
      write is one state message (a state tag and the bytes after it).
      Writes and flushes are taken to succeed.
    - A Python call that may raise returns a [result].
    - An exception is one of the classes the worker tells apart; a
      [SystemExit] carries the integer it was raised with, as
      [sys.exit(n)] and the SIGTERM path raise it.
    - The asyncio event loop is run round by round.  In one round the
      handlers of the signals delivered in it are called, the Task
      wrapping the coroutine takes its step if one is due, then
      [_handle_coro] and after it [_do_async_fn] are resumed if what they
      wait for is ready.  A schedule is the list of rounds; when it is
      used up with nothing ready the process is still blocked in the
      loop.
    - A coroutine suspends on a bare yield ([asyncio.sleep(0)]), after
      which its Task steps it in the next round, or in [asyncio.sleep]
      with a delay, after which its Task steps it when the timer is due.
      [coro.throw] does not pass through the Task: see [throw].
    - The cleanup of [_handle_coro] takes no round of its own: the task
      running it is done in the round in which its coroutine ends.
    - [_handle_SIGTERM] is not called anywhere in the module and has no
      counterpart here. *)

From Stdlib Require Import ZArith List Strings.String Strings.Byte Bool Lia.
Import ListNotations.
Local Open Scope string_scope.
Local Open Scope list_scope.
Local Open Scope Z_scope.

(** ** Exceptions and results *)

(** The exceptions the worker tells apart; any other class is an
    [Exception] with its type name and message. *)
Inductive exn : Type :=
| KeyboardInterrupt
| SystemExit (code : Z)
| CancelledError
| Exception (type_name : string) (message : string).

Inductive result (A : Type) : Type :=
| Ret (a : A)
| Raise (e : exn).
Arguments Ret {A} a.
Arguments Raise {A} e.

Definition UnboundLocalError (name : string) : exn :=
  Exception "UnboundLocalError"
            ("local variable '" ++ name ++ "' referenced before assignment")%string.

(** A future: [None] while pending, then its result or exception.  A
    cancelled future holds [CancelledError]. *)
Definition future (A : Type) : Type := option (result A).

Definition future_done {A} (f : future A) : bool :=
  match f with Some _ => true | None => false end.

Definition forget {A} (f : future A) : future unit :=
  match f with
  | None => None
  | Some (Ret _) => Some (Ret tt)
  | Some (Raise e) => Some (Raise e)
  end.

Definition forget_result {A} (r : result A) : result unit :=
  match r with
  | Ret _ => Ret tt
  | Raise e => Raise e
  end.

(** ** Bytes *)

Definition bytes : Type := list byte.

Definition byte_of_Z (z : Z) : byte :=
  match Byte.of_N (Z.to_N (z mod 256)) with
  | Some b => b
  | None => x00
  end.

Fixpoint big_endian (length : nat) (n : Z) : bytes :=
  match length with
  | O => []
  | S l => big_endian l (n / 256) ++ [byte_of_Z n]
  end.

(** [n.to_bytes(length, 'big')] *)
Definition to_bytes (n : Z) (length : nat) : result bytes :=
  if n <? 0 then
    Raise (Exception "OverflowError" "can't convert negative int to unsigned")
  else if 256 ^ Z.of_nat length <=? n then
    Raise (Exception "OverflowError" "int too big to convert")
  else Ret (big_endian length n).

(** ** States and the stream to the parent *)

(** Modelled from the spec: the enumeration [State] of state.py, in the
    order of the lifecycle.  Its one-byte codes are not under src/, so a
    message keeps its state as a tag. *)
Inductive State : Type :=
| INITIALIZING
| INITIALIZED
| WAIT_EXEC_DATA
| BOOTING
| STARTED
| EXECUTING
| STOPPING
| FINISHED.

Definition State_eqb (a b : State) : bool :=
  match a, b with
  | INITIALIZING, INITIALIZING | INITIALIZED, INITIALIZED
  | WAIT_EXEC_DATA, WAIT_EXEC_DATA | BOOTING, BOOTING
  | STARTED, STARTED | EXECUTING, EXECUTING
  | STOPPING, STOPPING | FINISHED, FINISHED => true
  | _, _ => false
  end.

(** One write: [state.value.to_bytes(1, 'big') + payload]. *)
Record message : Type := Msg { tag : State; payload : bytes }.

Definition BinaryIO : Type := list message.

Definition update_state (to_parent : BinaryIO) (state : State) : BinaryIO :=
  to_parent ++ [Msg state []].

Definition update_state_initialized (to_parent : BinaryIO) (pid : Z)
  : result BinaryIO :=
  match to_bytes pid 4 with
  | Ret pid_bytes => Ret (to_parent ++ [Msg INITIALIZED pid_bytes])
  | Raise e => Raise e
  end.

Definition update_state_finished (to_parent : BinaryIO)
           (finished_payload : bytes) : BinaryIO :=
  to_parent ++ [Msg FINISHED finished_payload].

(** ** Signals *)

(** [signal.SIGINT] and [signal.SIGTERM] (POSIX numbers). *)
Definition SIGINT : Z := 2.
Definition SIGTERM : Z := 15.
Definition SHUTDOWN_SIGNALS : list Z := [SIGTERM].

(** What the operating system delivers during one round of the loop. *)
Record round : Type := Round { sigint : bool; sigterm : bool }.

Definition quiet : round := Round false false.

(** ** Task cleanup *)

(** A task handed to [_do_task_cleanup]: its future, and what awaiting
    it gives once [task.cancel()] has been called on it while it was
    pending: [CancelledError] when the cancellation goes through,
    whatever the task ends with when it catches it. *)
Record task : Type := Task {
  task_future : future unit;
  if_cancelled : result unit
}.

(** [if not task.done(): task.cancel()], then [await task]. *)
Definition awaited (t : task) : result unit :=
  match task_future t with
  | Some r => r
  | None => if_cancelled t
  end.

(** [_do_task_cleanup] on its tasks: cancel each task that is not done,
    await it, and swallow [CancelledError] only. *)
Fixpoint _do_task_cleanup (tasks : list task) : result unit :=
  match tasks with
  | [] => Ret tt
  | t :: tasks' =>
      match awaited t with
      | Ret _ => _do_task_cleanup tasks'
      | Raise CancelledError => _do_task_cleanup tasks'
      | Raise e => Raise e
      end
  end.

(** What a step of a Task raises inside a coroutine that is suspended on
    a future the Task was not told to wait for. *)
Definition await_error : exn :=
  Exception "RuntimeError" "await wasn't used with future".

(** The process exit status reported for an exception that leaves the
    main module: the low eight bits of the argument of [SystemExit], 1
    for an uncaught error.  (An uncaught [KeyboardInterrupt] is reported
    through the SIGINT disposition and is left out.) *)
Definition exit_status (e : exn) : option Z :=
  match e with
  | SystemExit code => Some (code mod 256)
  | KeyboardInterrupt => None
  | CancelledError => Some 1
  | Exception _ _ => Some 1
  end.

Section Worker.

(** The values a task returns. *)
Variable value : Type.

(** *** Coroutines *)

(** A coroutine object, with the Task that wraps it, is finished, with
    a value or an exception, or suspended: resumed it goes on as
    [resume]; with [e] thrown into it it goes on as [handler e], up to
    its next suspension or its end.
    - [Await]: suspended on a bare yield; the Task has scheduled its
      next step, which resumes the coroutine in the next round.
    - [Sleep]: suspended in [asyncio.sleep] with a delay; the Task waits
      for the timer, due after [rounds] more rounds.
    - [Stranded]: suspended at an await while the Task waits for a timer
      that was cancelled; no step of the Task resumes it any more. *)
Inductive Coroutine : Type :=
| Return (v : value)
| Raise_ (e : exn)
| Await (resume : Coroutine) (handler : exn -> Coroutine)
| Sleep (rounds : nat) (resume : Coroutine) (handler : exn -> Coroutine)
| Stranded (handler : exn -> Coroutine).

(** One round of the Task wrapping the coroutine: [coro.send(None)] when
    the step it scheduled is due or the timer it waits for has fired. *)
Definition send (c : Coroutine) : Coroutine :=
  match c with
  | Await resume _ => resume
  | Sleep O resume _ => resume
  | Sleep (S rounds) resume handler => Sleep rounds resume handler
  | _ => c
  end.

(** Where [coro.throw] leaves a coroutine whose Task has a step
    scheduled.  The Task was not told about a future the coroutine now
    awaits: its step resumes the coroutine with that future pending,
    which raises [await_error] at the await. *)
Definition thrown_while_scheduled (c : Coroutine) : Coroutine :=
  match c with
  | Sleep _ _ handler => Await (handler await_error) handler
  | _ => c
  end.

(** Where [coro.throw] leaves a coroutine whose Task waits for a timer:
    leaving [asyncio.sleep] cancels the timer, the Task goes on waiting
    for it, and nothing is registered on what the coroutine awaits
    now. *)
Definition thrown_while_waiting (c : Coroutine) : Coroutine :=
  match c with
  | Await _ handler => Stranded handler
  | Sleep _ _ handler => Stranded handler
  | _ => c
  end.

(** [coro.throw(e)], called by [_handle_coro] and not by the Task. *)
Definition throw (c : Coroutine) (e : exn) : Coroutine :=
  match c with
  | Await _ handler => thrown_while_scheduled (handler e)
  | Sleep _ _ handler => thrown_while_waiting (handler e)
  | Stranded handler => thrown_while_waiting (handler e)
  | _ => Raise_ (Exception "RuntimeError"
                           "cannot reuse already awaited coroutine")
  end.

(** The state of [asyncio.ensure_future(asyncio.shield(coro))] while
    [_handle_coro] looks at it: done when the coroutine has ended. *)
Definition coro_task_of (c : Coroutine) : future value :=
  match c with
  | Return v => Some (Ret v)
  | Raise_ e => Some (Raise e)
  | _ => None
  end.

(** A coroutine object just created from the body of an [async def]:
    the first [send] runs the body, a [throw] before that raises at
    once. *)
Definition new_coroutine (body : Coroutine) : Coroutine :=
  Await body Raise_.

(** *** The codec (_utils.py, not under src/) *)

(** What is given to [pickle_value]: the task's result, or the
    [RemoteException] built from the exception caught (its traceback
    is interpreter state and is left out). *)
Inductive pyobj : Type :=
| Result (v : value)
| RemoteException (exc_value : exn).

Definition async_fn_t : Type := list value -> result Coroutine.

(** [pickle_value] encodes an object and may raise. *)
Variable pickle_value : pyobj -> result bytes.

(** [receive_pickled_value] reads the descriptor, the task function and
    its arguments, from the bytes the parent has written. *)
Variable receive_pickled_value : bytes -> result (async_fn_t * list value).

(** *** _handle_coro *)

(** [_handle_coro] from one [await asyncio.wait(...)] to the next: the
    coroutine and the flag after it, and the state of the task running
    it.  [coro] has already been stepped in this round. *)
Definition _handle_coro (coro : Coroutine) (got_SIGINT : bool)
  : Coroutine * bool * future value :=
  let coro_task := coro_task_of coro in
  let sigint_wait : future unit :=
    if got_SIGINT then Some (Ret tt) else None in
  if future_done coro_task || future_done sigint_wait then
    (* done, pending = await asyncio.wait(..., FIRST_COMPLETED) *)
    (* cancelling the future of the shield, or the task of
       got_SIGINT.wait(), goes through *)
    let pending :=
      filter (fun t => negb (future_done (task_future t)))
             [Task (forget coro_task) (Raise CancelledError);
              Task sigint_wait (Raise CancelledError)] in
    match coro_task with
    | Some r =>
        match _do_task_cleanup pending with
        | Ret _ => (coro, got_SIGINT, Some r)
        | Raise e => (coro, got_SIGINT, Some (Raise e))
        end
    | None =>
        if got_SIGINT then
          let got_SIGINT := false in
          let coro := throw coro KeyboardInterrupt in
          match coro with
          | Return v =>
              (* except StopIteration as err *)
              match _do_task_cleanup pending with
              | Ret _ => (coro, got_SIGINT, Some (Ret v))
              | Raise e => (coro, got_SIGINT, Some (Raise e))
              end
          | Raise_ e => (coro, got_SIGINT, Some (Raise e))
          | _ => (coro, got_SIGINT, None)
          end
        else
          (coro, got_SIGINT,
           Some (Raise (Exception "Exception"
                                  "Code path should not be reachable")))
    end
  else (coro, got_SIGINT, None).

(** *** The event loop *)

Record loop_state : Type := Loop {
  async_fn_coro : Coroutine;
  got_SIGINT : bool;
  system_exit_signum : option Z;
  async_fn_task : future value
}.

Definition set_result (fut : option Z) (signum : Z) : option Z :=
  match fut with
  | None => Some signum
  | Some _ => fut
  end.

(** One round: the handlers of the delivered signals run, the Task
    wrapping the coroutine takes its step, and [_handle_coro] is resumed
    with the flag and the coroutine as that leaves them.  [_do_async_fn]
    is resumed after it, on the state returned. *)
Definition run_once (st : loop_state) (rd : round) : loop_state :=
  let system_exit_signum :=
    if sigterm rd then set_result (system_exit_signum st) SIGTERM
    else system_exit_signum st in
  let got_SIGINT := got_SIGINT st || sigint rd in
  match async_fn_task st with
  | Some _ =>
      Loop (async_fn_coro st) got_SIGINT system_exit_signum
           (async_fn_task st)
  | None =>
      let '(coro, got_SIGINT, task) :=
        _handle_coro (send (async_fn_coro st)) got_SIGINT in
      Loop coro got_SIGINT system_exit_signum task
  end.

Definition woken (st : loop_state) : bool :=
  future_done (async_fn_task st)
  || match system_exit_signum st with Some _ => true | None => false end.

(** [await asyncio.wait((async_fn_task, system_exit_signum),
    return_when=FIRST_COMPLETED)]: the state in which [_do_async_fn]
    is resumed, [None] when the schedule ends first. *)
Fixpoint asyncio_wait (st : loop_state) (sched : list round)
  : option loop_state :=
  match sched with
  | [] => None
  | rd :: sched' =>
      let st' := run_once st rd in
      if woken st' then Some st' else asyncio_wait st' sched'
  end.

(** *** _do_async_fn *)

(** What the task running [_handle_coro] ends with when it is cancelled
    while pending.  While the coroutine runs, [_handle_coro] waits in
    [asyncio.wait], where the cancellation is not caught.  Once the
    coroutine has ended, [_handle_coro] is in its own
    [_do_task_cleanup], which swallows the cancellation, and goes on to
    [return await coro_task]. *)
Definition _handle_coro_cancelled (coro : Coroutine) : result value :=
  match coro_task_of coro with
  | None => Raise CancelledError
  | Some r => r
  end.

Definition _do_async_fn (async_fn : async_fn_t) (args : list value)
           (to_parent : BinaryIO) (sched : list round)
  : BinaryIO * option (result value) :=
  let to_parent := update_state to_parent STARTED in
  let to_parent := update_state to_parent EXECUTING in
  match async_fn args with
  | Raise e => (to_parent, Some (Raise e))
  | Ret body =>
      match asyncio_wait (Loop (new_coroutine body) false None None) sched with
      | None => (to_parent, None)
      | Some st =>
          match system_exit_signum st with
          | Some signum =>
              (* We prioritize the SystemExit case. *)
              match _do_task_cleanup
                      [Task (forget (async_fn_task st))
                            (forget_result
                               (_handle_coro_cancelled (async_fn_coro st)))]
              with
              | Raise e => (to_parent, Some (Raise e))
              | Ret _ => (to_parent, Some (Raise (SystemExit signum)))
              end
          | None =>
              match async_fn_task st with
              | Some r => (to_parent, Some r)
              | None =>
                  (to_parent,
                   Some (Raise (Exception "Exception" "unreachable")))
              end
          end
      end
  end.

(** *** _run_process *)

(** The exit code the handlers of the outer [try] choose: 2 for
    [KeyboardInterrupt], [err.args[0]] for [SystemExit], 1 otherwise.
    A [SystemExit] raised with no argument, for which [err.args[0]]
    fails and [code] stays unbound, is not among the exceptions of the
    model. *)
Definition code_of (e : exn) : Z :=
  match e with
  | KeyboardInterrupt => 2
  | SystemExit code => code
  | _ => 1
  end.

(** The [finally] of the outer [try]: [update_state_finished(to_parent,
    finished_payload)], then [sys.exit(code)].  Either local may be
    unbound; an exception raised here replaces the one in flight. *)
Definition finish (to_parent : BinaryIO) (finished_payload : option bytes)
           (code : option Z) : BinaryIO * option exn :=
  match finished_payload with
  | None => (to_parent, Some (UnboundLocalError "finished_payload"))
  | Some p =>
      let to_parent := update_state_finished to_parent p in
      match code with
      | None => (to_parent, Some (UnboundLocalError "code"))
      | Some code => (to_parent, Some (SystemExit code))
      end
  end.

(** [_run_process]: the writes made to the parent and the exception that
    leaves the function; [None] while the loop is still blocked. *)
Definition _run_process (pid : Z) (from_parent : bytes)
           (sched : list round) : BinaryIO * option exn :=
  let to_parent : BinaryIO := [] in
  match update_state_initialized to_parent pid with
  | Raise e => (to_parent, Some e)
  | Ret to_parent =>
      let to_parent := update_state to_parent WAIT_EXEC_DATA in
      match receive_pickled_value from_parent with
      | Raise e => (to_parent, Some e)
      | Ret (async_fn, args) =>
          let to_parent := update_state to_parent BOOTING in
          match _do_async_fn async_fn args to_parent sched with
          | (to_parent, None) => (to_parent, None)
          | (to_parent, Some r) =>
              (* try: result = loop.run_until_complete(...)
                 except BaseException:
                     finished_payload = pickle_value(remote_exc); raise *)
              let '(finished_payload, inner) :=
                match r with
                | Ret result => (None, Ret result)
                | Raise exc_value =>
                    match pickle_value (RemoteException exc_value) with
                    | Ret p => (Some p, Raise exc_value)
                    | Raise e' => (None, Raise e')
                    end
                end in
              (* finally: update_state(to_parent, State.STOPPING) *)
              let to_parent := update_state to_parent STOPPING in
              (* except KeyboardInterrupt / SystemExit / BaseException:
                     code = ...
                 else: finished_payload = pickle_value(result); code = 0 *)
              let '(finished_payload, code) :=
                match inner with
                | Raise e => (finished_payload, Some (code_of e))
                | Ret result =>
                    match pickle_value (Result result) with
                    | Ret p => (Some p, Some 0)
                    | Raise _ => (finished_payload, None)
                    end
                end in
              (* finally: update_state_finished(...); sys.exit(code) *)
              finish to_parent finished_payload code
          end
      end
  end.

End Worker.

Arguments Return {value} v.
Arguments Raise_ {value} e.
Arguments Await {value} resume handler.
Arguments Sleep {value} rounds resume handler.
Arguments Stranded {value} handler.
Arguments thrown_while_scheduled {value} c.
Arguments thrown_while_waiting {value} c.
Arguments _handle_coro_cancelled {value} coro.
Arguments send {value} c.
Arguments throw {value} c e.
Arguments coro_task_of {value} c.
Arguments new_coroutine {value} body.
Arguments Result {value} v.
Arguments RemoteException {value} exc_value.
Arguments _handle_coro {value} coro got_SIGINT.
Arguments Loop {value} async_fn_coro got_SIGINT system_exit_signum async_fn_task.
Arguments async_fn_coro {value} l.
Arguments got_SIGINT {value} l.
Arguments system_exit_signum {value} l.
Arguments async_fn_task {value} l.
Arguments run_once {value} st rd.
Arguments woken {value} st.
Arguments asyncio_wait {value} st sched.
Arguments _do_async_fn {value} async_fn args to_parent sched.
Arguments _run_process {value} pickle_value receive_pickled_value pid from_parent sched.

(** ** Behaviours of tasks and of schedules *)

(** [swallows res n c]: the coroutine [c] ends with [res] within [n]
    resumptions however [KeyboardInterrupt] is thrown into it on the way:
    at each suspension the interrupt is caught and the task goes on to
    the same result. *)
Inductive swallows {value : Type} (res : result value)
  : nat -> Coroutine value -> Prop :=
| swallows_done n c :
    coro_task_of c = Some res -> swallows res n c
| swallows_await n resume handler :
    swallows res n resume ->
    swallows res n (handler KeyboardInterrupt) ->
    swallows res (S n) (Await resume handler).

(** How many rounds of a schedule deliver SIGINT. *)
Definition interrupts (sched : list round) : nat :=
  List.length (filter sigint sched).

Definition no_sigterm (sched : list round) : Prop :=
  Forall (fun rd => sigterm rd = false) sched.

(** The same schedule with every SIGINT removed. *)
Definition without_sigint (sched : list round) : list round :=
  map (fun rd => Round false (sigterm rd)) sched.

(** The FINISHED messages of a stream. *)
Definition finished_messages (to_parent : BinaryIO) : list message :=
  filter (fun m => State_eqb (tag m) FINISHED) to_parent.

(** The coroutine after [n] resumptions with nothing thrown into it. *)
Fixpoint resume {value : Type} (n : nat) (c : Coroutine value)
  : Coroutine value :=
  match n with
  | O => c
  | S n' => resume n' (send c)
  end.

(** The stream once the descriptor is read and the loop is entered. *)
Definition booted (pid : Z) : BinaryIO :=
  [Msg INITIALIZED (big_endian 4 pid); Msg WAIT_EXEC_DATA [];
   Msg BOOTING []; Msg STARTED []; Msg EXECUTING []].

(** The loop as [_do_async_fn] enters it. *)
Definition initial_loop {value : Type} (body : Coroutine value)
  : loop_state value :=
  Loop (new_coroutine body) false None None.

(** What [loop.run_until_complete(_do_async_fn(...))] returns or raises;
    [None] while the loop is blocked. *)
Definition run_until_complete {value : Type} (async_fn : async_fn_t value)
           (args : list value) (sched : list round)
  : option (result value) :=
  snd (_do_async_fn async_fn args [] sched).

(** The exit status of the worker process, once it has exited. *)
Definition process_exit_status (run : BinaryIO * option exn) : option Z :=
  match snd run with
  | Some e => exit_status e
  | None => None
  end.

(** The terminate future is pending or holds the number of SIGTERM. *)
Definition signum_ok {value : Type} (st : loop_state value) : Prop :=
  system_exit_signum st = None \/ system_exit_signum st = Some SIGTERM.

(** The task running [_handle_coro] is done exactly when its coroutine
    has ended, with the same result. *)
Definition in_step {value : Type} (st : loop_state value) : Prop :=
  async_fn_task st = coro_task_of (async_fn_coro st).

(** [int.from_bytes(b, 'big')], as the reader of a field applies it. *)
Definition from_bytes (b : bytes) : Z :=
  fold_left (fun acc x => acc * 256 + Z.of_N (Byte.to_N x)) b 0.

(** The states in the order in which [_run_process] writes them. *)
Definition lifecycle : list State :=
  [INITIALIZED; WAIT_EXEC_DATA; BOOTING; STARTED; EXECUTING; STOPPING;
   FINISHED].

(** The exceptions of the two branches the source marks as not
    reachable. *)
Definition not_reachable : exn :=
  Exception "Exception" "Code path should not be reachable".

Definition unreachable : exn := Exception "Exception" "unreachable".

(** ** A small codec and some tasks, to run the worker on *)

Module Example.

(** Results are integers; one that fits a byte is encoded, any other
    is refused. *)
Definition pickle_value (o : pyobj Z) : result bytes :=
  match o with
  | Result v =>
      if (0 <=? v) && (v <? 256) then Ret [x00; byte_of_Z v]
      else Raise (Exception "PicklingError" "result does not fit a byte")
  | RemoteException KeyboardInterrupt => Ret [x01; x00]
  | RemoteException CancelledError => Ret [x01; x01]
  | RemoteException (SystemExit code) => Ret [x01; x02; byte_of_Z code]
  | RemoteException (Exception type_name msg) =>
      Ret (x01 :: x03 :: list_byte_of_string msg)
  end.

Definition unpickle (p : bytes) : option (pyobj Z) :=
  match p with
  | [x00; b] => Some (Result (Z.of_N (Byte.to_N b)))
  | _ => None
  end.

(** [async def sleeper(): await ... (n times); return v], which lets an
    interrupt through. *)
Fixpoint sleeper (n : nat) (v : Z) : Coroutine Z :=
  match n with
  | O => Return v
  | S n' => Await (sleeper n' v) Raise_
  end.

(** The same, catching [KeyboardInterrupt] at every suspension and
    sleeping on. *)
Fixpoint stubborn (n : nat) (v : Z) : Coroutine Z :=
  match n with
  | O => Return v
  | S n' =>
      Await (stubborn n' v)
            (fun e => match e with
                      | KeyboardInterrupt => stubborn n' v
                      | _ => Raise_ e
                      end)
  end.

(** Sleeps [n] times; on [KeyboardInterrupt] returns [w] at once. *)
Fixpoint returns_on_interrupt (n : nat) (v w : Z) : Coroutine Z :=
  match n with
  | O => Return v
  | S n' =>
      Await (returns_on_interrupt n' v w)
            (fun e => match e with
                      | KeyboardInterrupt => Return w
                      | _ => Raise_ e
                      end)
  end.

(** [async def boom(): raise ValueError("boom")] *)
Definition boom : Coroutine Z := Raise_ (Exception "ValueError" "boom").

(** The descriptor read from the parent: the first byte picks the task,
    the argument list is empty; an empty stream fails to decode. *)
Definition receive_pickled_value (from_parent : bytes)
  : result (async_fn_t Z * list Z) :=
  match from_parent with
  | [] => Raise (Exception "EOFError" "Ran out of input")
  | x00 :: _ => Ret (fun _ => Ret (sleeper 2 7), [])
  | x01 :: _ => Ret (fun _ => Ret (stubborn 3 7), [])
  | x02 :: _ => Ret (fun _ => Ret (returns_on_interrupt 3 7 9), [])
  | x03 :: _ => Ret (fun _ => Ret boom, [])
  | x04 :: _ => Ret (fun _ => Ret (sleeper 1 1000), [])
  | _ => Ret (fun _ => Raise (Exception "TypeError" "missing argument"), [])
  end.

Definition run (pid : Z) (from_parent : bytes) (sched : list round)
  : BinaryIO * option exn :=
  _run_process pickle_value receive_pickled_value pid from_parent sched.

End Example.

(** A codec that refuses to encode the exceptions of a task. *)
Module Strict.

Definition pickle_value (o : pyobj Z) : result bytes :=
  match o with
  | RemoteException (Exception _ _) =>
      Raise (Exception "PicklingError" "exception does not pickle")
  | _ => Example.pickle_value o
  end.

End Strict.

(** A task that sleeps. *)
Module Nap.

(** [async def napper()]: [n] times [try: await asyncio.sleep(t)] with
    [except KeyboardInterrupt: pass], each sleep two rounds long, then
    [return v]. *)
Fixpoint napper (n : nat) (v : Z) : Coroutine Z :=
  match n with
  | O => Return v
  | S n' =>
      Sleep 1 (napper n' v)
            (fun e => match e with
                      | KeyboardInterrupt => napper n' v
                      | _ => Raise_ e
                      end)
  end.

Definition receive_pickled_value (from_parent : bytes)
  : result (async_fn_t Z * list Z) :=
  Ret (fun _ => Ret (napper 2 7), []).

Definition run (pid : Z) (sched : list round) : BinaryIO * option exn :=
  _run_process Example.pickle_value receive_pickled_value pid [] sched.

End Nap.

(** * Properties *)

Section Properties.

Context {value : Type}.
Variable pickle_value : pyobj value -> result bytes.
Variable receive_pickled_value :
  bytes -> result (async_fn_t value * list value).

(** Modelled from the spec: the decoding side of the ResultCodec, as the
    parent applies it to the bytes after FINISHED (_utils.py and the
    parent are not under src/). *)
Variable unpickle : bytes -> option (pyobj value).

(** A result that was encoded decodes to itself. *)
Hypothesis unpickle_result :
  forall v p, pickle_value (Result v) = Ret p -> unpickle p = Some (Result v).

Local Abbreviation run_process :=
  (_run_process pickle_value receive_pickled_value).

(** ** The pid field *)

Lemma to_bytes_pid (pid : Z) :
  0 <= pid < 2 ^ 32 -> to_bytes pid 4 = Ret (big_endian 4 pid).
Proof.
  intros [Hlo Hhi]. unfold to_bytes.
  destruct (Z.ltb_spec pid 0) as [Hneg | _]; [lia |].
  change (256 ^ Z.of_nat 4) with (2 ^ 32).
  destruct (Z.leb_spec (2 ^ 32) pid) as [Hbig | _]; [lia | reflexivity].
Qed.

(** ** One resumption of [_handle_coro] *)

Lemma _handle_coro_done (c : Coroutine value) (flag : bool) r :
  coro_task_of c = Some r -> _handle_coro c flag = (c, flag, Some r).
Proof.
  intros Hdone. unfold _handle_coro. rewrite Hdone.
  destruct flag, r; reflexivity.
Qed.

Lemma _handle_coro_idle (c : Coroutine value) :
  coro_task_of c = None -> _handle_coro c false = (c, false, None).
Proof.
  intros Hpending. unfold _handle_coro. rewrite Hpending. reflexivity.
Qed.

Lemma _handle_coro_interrupt (c : Coroutine value) :
  coro_task_of c = None ->
  _handle_coro c true =
  (throw c KeyboardInterrupt, false,
   coro_task_of (throw c KeyboardInterrupt)).
Proof.
  intros Hpending. unfold _handle_coro. rewrite Hpending. cbn.
  destruct (throw c KeyboardInterrupt); reflexivity.
Qed.

(** The branch marked as not reachable is not reached: [_handle_coro]
    goes on only when the coroutine is done or the flag is set. *)
Lemma _handle_coro_cases (c : Coroutine value) (flag : bool) :
  _handle_coro c flag =
  match coro_task_of c with
  | Some r => (c, flag, Some r)
  | None =>
      if flag
      then (throw c KeyboardInterrupt, false,
            coro_task_of (throw c KeyboardInterrupt))
      else (c, false, None)
  end.
Proof.
  destruct (coro_task_of c) as [r |] eqn:Hc.
  - now apply _handle_coro_done.
  - destruct flag.
    + now apply _handle_coro_interrupt.
    + now apply _handle_coro_idle.
Qed.

(** ** Rounds of the loop *)

Lemma send_done (c : Coroutine value) r :
  coro_task_of c = Some r -> send c = c.
Proof. destruct c; simpl; intros H; try reflexivity; discriminate H. Qed.


Lemma resume_done (n : nat) :
  forall (c : Coroutine value) r,
    coro_task_of c = Some r -> resume n c = c.
Proof.
  induction n as [| n IH]; intros c r Hdone; simpl.
  - reflexivity.
  - rewrite (send_done c r Hdone). now apply IH with r.
Qed.

Lemma asyncio_wait_app (pre rest : list round) :
  forall st : loop_state value,
    asyncio_wait st pre = None ->
    asyncio_wait st (pre ++ rest) =
    asyncio_wait (fold_left run_once pre st) rest.
Proof.
  induction pre as [| rd pre IH]; intros st Hnone; simpl in *.
  - reflexivity.
  - destruct (woken (run_once st rd)); [discriminate | now apply IH].
Qed.


Lemma run_once_pending (c : Coroutine value) (flag : bool) (rd : round) :
  sigterm rd = false ->
  run_once (Loop c flag None None) rd =
  let '(c', flag', task) := _handle_coro (send c) (flag || sigint rd) in
  Loop c' flag' None task.
Proof.
  intros Hterm. unfold run_once. cbn. rewrite Hterm. reflexivity.
Qed.

(** With no signal the loop resumes the coroutine until it ends. *)
Lemma asyncio_wait_quiet (n : nat) :
  forall (c : Coroutine value) r (rest : list round),
    coro_task_of (resume (S n) c) = Some r ->
    asyncio_wait (Loop c false None None) (repeat quiet (S n) ++ rest) =
    Some (Loop (resume (S n) c) false None (Some r)).
Proof.
  induction n as [| n IH]; intros c r rest Hdone.
  - cbn [repeat app asyncio_wait resume] in *.
    rewrite run_once_pending by reflexivity.
    rewrite _handle_coro_cases, Hdone. reflexivity.
  - change (repeat quiet (S (S n)) ++ rest)
      with (quiet :: (repeat quiet (S n) ++ rest)).
    change (resume (S (S n)) c) with (resume (S n) (send c)) in *.
    cbn [asyncio_wait].
    rewrite run_once_pending by reflexivity.
    rewrite _handle_coro_cases.
    destruct (coro_task_of (send c)) as [r1 |] eqn:Hc1.
    + rewrite (resume_done (S n) (send c) r1 Hc1) in *.
      assert (r1 = r) by congruence. subst r1. reflexivity.
    + cbn [orb sigint quiet woken async_fn_task future_done
           system_exit_signum].
      now apply IH.
Qed.

(** ** The run as a whole *)

(** C3: a task that returns [v] with no signal delivered writes
    INITIALIZED, WAIT_EXEC_DATA, BOOTING, STARTED, EXECUTING, STOPPING,
    FINISHED in this order and nothing else, the FINISHED payload decodes
    to the result [v], and the process exits with status 0. *)
Theorem normal_run_states_in_order :
  forall pid from_parent async_fn args body n v p rest,
    0 <= pid < 2 ^ 32 ->
    receive_pickled_value from_parent = Ret (async_fn, args) ->
    async_fn args = Ret body ->
    resume n body = Return v ->
    pickle_value (Result v) = Ret p ->
    run_process pid from_parent (repeat quiet (S n) ++ rest) =
    ([Msg INITIALIZED (big_endian 4 pid); Msg WAIT_EXEC_DATA [];
      Msg BOOTING []; Msg STARTED []; Msg EXECUTING [];
      Msg STOPPING []; Msg FINISHED p],
     Some (SystemExit 0))
    /\ unpickle p = Some (Result v).
Proof.
  intros pid from_parent async_fn args body n v p rest
         Hpid Hrecv Hfn Hret Hpickle.
  split; [| now apply unpickle_result].
  unfold _run_process, update_state_initialized.
  rewrite (to_bytes_pid pid Hpid), Hrecv.
  unfold _do_async_fn. rewrite Hfn.
  rewrite asyncio_wait_quiet with (r := Ret v).
  - cbn. rewrite Hpickle. reflexivity.
  - cbn [resume new_coroutine send]. now rewrite Hret.
Qed.

(** [_do_async_fn] is resumed only with one of its two futures done, so
    its branch marked unreachable is not reached. *)
Lemma asyncio_wait_woken (sched : list round) :
  forall st st' : loop_state value,
    asyncio_wait st sched = Some st' -> woken st' = true.
Proof.
  induction sched as [| rd sched IH]; intros st st' Hwait; simpl in Hwait.
  - discriminate.
  - destruct (woken (run_once st rd)) eqn:Hw.
    + injection Hwait as <-. exact Hw.
    + now apply IH with (run_once st rd).
Qed.

(** ** From the outcome of the loop to the end of the process *)

Lemma _do_async_fn_split async_fn args to_parent sched :
  _do_async_fn (value := value) async_fn args to_parent sched =
  (to_parent ++ [Msg STARTED []; Msg EXECUTING []],
   run_until_complete async_fn args sched).
Proof.
  unfold run_until_complete, _do_async_fn, update_state.
  rewrite <- app_assoc. cbn [app].
  destruct (async_fn args) as [body | e]; [| reflexivity].
  destruct (asyncio_wait _ sched) as [st |]; [| reflexivity].
  destruct (system_exit_signum st) as [signum |].
  - destruct (_do_task_cleanup _); reflexivity.
  - destruct (async_fn_task st); reflexivity.
Qed.

(** What [_run_process] does once the loop has settled with [r]. *)
Lemma run_process_settled pid from_parent sched async_fn args r :
  0 <= pid < 2 ^ 32 ->
  receive_pickled_value from_parent = Ret (async_fn, args) ->
  run_until_complete async_fn args sched = Some r ->
  run_process pid from_parent sched =
  match r with
  | Ret v =>
      match pickle_value (Result v) with
      | Ret p =>
          (booted pid ++ [Msg STOPPING []; Msg FINISHED p],
           Some (SystemExit 0))
      | Raise _ =>
          (booted pid ++ [Msg STOPPING []],
           Some (UnboundLocalError "finished_payload"))
      end
  | Raise e =>
      match pickle_value (RemoteException e) with
      | Ret p =>
          (booted pid ++ [Msg STOPPING []; Msg FINISHED p],
           Some (SystemExit (code_of e)))
      | Raise _ =>
          (booted pid ++ [Msg STOPPING []],
           Some (UnboundLocalError "finished_payload"))
      end
  end.
Proof.
  intros Hpid Hrecv Hloop.
  unfold _run_process, update_state_initialized.
  rewrite (to_bytes_pid pid Hpid), Hrecv, _do_async_fn_split, Hloop.
  destruct r as [v | e].
  - destruct (pickle_value (Result v)); reflexivity.
  - destruct (pickle_value (RemoteException e)); reflexivity.
Qed.

Lemma run_process_blocked pid from_parent sched async_fn args :
  0 <= pid < 2 ^ 32 ->
  receive_pickled_value from_parent = Ret (async_fn, args) ->
  run_until_complete async_fn args sched = None ->
  run_process pid from_parent sched = (booted pid, None).
Proof.
  intros Hpid Hrecv Hloop.
  unfold _run_process, update_state_initialized.
  rewrite (to_bytes_pid pid Hpid), Hrecv, _do_async_fn_split, Hloop.
  reflexivity.
Qed.

(** ** SIGTERM *)

Lemma run_once_signum (st : loop_state value) (rd : round) :
  signum_ok st -> signum_ok (run_once st rd).
Proof.
  unfold signum_ok, run_once. intros Hst.
  destruct (async_fn_task st);
    [| destruct (_handle_coro _ _) as [[c flag] task]];
    cbn [system_exit_signum];
    (destruct (sigterm rd); [| exact Hst]);
    destruct Hst as [-> | ->]; cbn; auto.
Qed.

Lemma asyncio_wait_signum (sched : list round) :
  forall st st' : loop_state value,
    signum_ok st -> asyncio_wait st sched = Some st' -> signum_ok st'.
Proof.
  induction sched as [| rd sched IH]; intros st st' Hst Hwait; simpl in Hwait.
  - discriminate.
  - pose proof (run_once_signum st rd Hst) as Hnext.
    destruct (woken (run_once st rd)).
    + injection Hwait as <-. exact Hnext.
    + now apply IH with (run_once st rd).
Qed.

Lemma run_once_in_step (st : loop_state value) (rd : round) :
  in_step st -> in_step (run_once st rd).
Proof.
  unfold in_step, run_once. intros Hst.
  destruct (async_fn_task st) as [r |] eqn:Htask; cbn.
  - exact Hst.
  - rewrite _handle_coro_cases.
    destruct (coro_task_of (send (async_fn_coro st))) as [r |] eqn:Hc; cbn.
    + now rewrite Hc.
    + destruct (got_SIGINT st || sigint rd); cbn; [reflexivity |].
      now rewrite Hc.
Qed.

Lemma asyncio_wait_in_step (sched : list round) :
  forall st st' : loop_state value,
    in_step st -> asyncio_wait st sched = Some st' -> in_step st'.
Proof.
  induction sched as [| rd sched IH]; intros st st' Hst Hwait; simpl in Hwait.
  - discriminate.
  - pose proof (run_once_in_step st rd Hst) as Hnext.
    destruct (woken (run_once st rd)).
    + injection Hwait as <-. exact Hnext.
    + now apply IH with (run_once st rd).
Qed.

(** When [_do_async_fn] is resumed with the terminate future set while
    the coroutine of the task has not ended, the task is cancelled and
    [SystemExit] is raised with the signal number. *)
Lemma run_until_complete_terminated async_fn args body sched st :
  async_fn args = Ret body ->
  asyncio_wait (initial_loop body) sched = Some st ->
  system_exit_signum st <> None ->
  coro_task_of (async_fn_coro st) = None ->
  run_until_complete (value := value) async_fn args sched =
  Some (Raise (SystemExit SIGTERM)).
Proof.
  intros Hfn Hwait Hset Hrunning.
  assert (Hsig : signum_ok st).
  { apply asyncio_wait_signum with (2 := Hwait). now left. }
  assert (Hstep : in_step st).
  { apply asyncio_wait_in_step with (2 := Hwait). reflexivity. }
  destruct Hsig as [Hnone | Hterm]; [contradiction |].
  unfold in_step in Hstep. rewrite Hrunning in Hstep.
  unfold run_until_complete, _do_async_fn. rewrite Hfn.
  fold (initial_loop body).
  rewrite Hwait, Hterm, Hstep. unfold _handle_coro_cancelled.
  rewrite Hrunning. reflexivity.
Qed.

(** C1 (amended): when SIGTERM wins the race during EXECUTING -- the loop
    resumes [_do_async_fn] with the terminate future set while the
    coroutine of the task has not ended -- the worker exits with the
    number of the signal as its status, and the forced exit is reported
    like any failure: STOPPING, then FINISHED carrying the encoded
    [RemoteException] of the [SystemExit], are written first. *)
Theorem terminate_exits_with_signal_after_finished :
  forall pid from_parent sched async_fn args body st p,
    0 <= pid < 2 ^ 32 ->
    receive_pickled_value from_parent = Ret (async_fn, args) ->
    async_fn args = Ret body ->
    asyncio_wait (initial_loop body) sched = Some st ->
    system_exit_signum st <> None ->
    coro_task_of (async_fn_coro st) = None ->
    pickle_value (RemoteException (SystemExit SIGTERM)) = Ret p ->
    run_process pid from_parent sched =
    (booted pid ++ [Msg STOPPING []; Msg FINISHED p],
     Some (SystemExit SIGTERM))
    /\ process_exit_status (run_process pid from_parent sched)
       = Some SIGTERM.
Proof.
  intros pid from_parent sched async_fn args body st p
         Hpid Hrecv Hfn Hwait Hset Hrunning Hpickle.
  pose proof (run_until_complete_terminated _ _ _ _ _
                Hfn Hwait Hset Hrunning) as Hloop.
  pose proof (run_process_settled _ _ _ _ _ _ Hpid Hrecv Hloop) as Hrun.
  cbv beta iota in Hrun. rewrite Hpickle in Hrun.
  rewrite Hrun. split; reflexivity.
Qed.

(** C2 (amended): a failure raised inside the scheduler -- calling the
    task function or running the task -- is caught and wrapped into a
    [RemoteException]; once that is encoded the worker writes STOPPING,
    then FINISHED carrying it, and exits with the code of the failure.
    A failure while the descriptor is decoded is not caught: it leaves
    [_run_process] after WAIT_EXEC_DATA, with no STOPPING and no
    FINISHED. *)
Theorem task_failure_is_reported :
  forall pid from_parent sched,
    0 <= pid < 2 ^ 32 ->
    (forall async_fn args e p,
        receive_pickled_value from_parent = Ret (async_fn, args) ->
        run_until_complete async_fn args sched = Some (Raise e) ->
        pickle_value (RemoteException e) = Ret p ->
        run_process pid from_parent sched =
        (booted pid ++ [Msg STOPPING []; Msg FINISHED p],
         Some (SystemExit (code_of e))))
    /\ (forall e,
          receive_pickled_value from_parent = Raise e ->
          run_process pid from_parent sched =
          ([Msg INITIALIZED (big_endian 4 pid); Msg WAIT_EXEC_DATA []],
           Some e)).
Proof.
  intros pid from_parent sched Hpid. split.
  - intros async_fn args e p Hrecv Hloop Hpickle.
    rewrite (run_process_settled _ _ _ _ _ _ Hpid Hrecv Hloop).
    now rewrite Hpickle.
  - intros e Hrecv.
    unfold _run_process, update_state_initialized.
    now rewrite (to_bytes_pid pid Hpid), Hrecv.
Qed.

(** C7: once the outcome of the task is encoded, the exit status of the
    worker is 0 when the task returned a value, 2 when a
    [KeyboardInterrupt] propagated, 1 for any other failure (the low
    eight bits of N for a [SystemExit(N)] raised by the task); and on
    the terminate path -- SIGTERM delivered while the coroutine of the
    task has not ended -- it is the number of the signal. *)
Theorem exit_status_by_outcome :
  forall pid from_parent sched async_fn args,
    0 <= pid < 2 ^ 32 ->
    receive_pickled_value from_parent = Ret (async_fn, args) ->
    (forall v p,
        run_until_complete async_fn args sched = Some (Ret v) ->
        pickle_value (Result v) = Ret p ->
        process_exit_status (run_process pid from_parent sched) = Some 0)
    /\ (forall e p,
          run_until_complete async_fn args sched = Some (Raise e) ->
          pickle_value (RemoteException e) = Ret p ->
          process_exit_status (run_process pid from_parent sched) =
          Some (match e with
                | KeyboardInterrupt => 2
                | SystemExit N => N mod 256
                | _ => 1
                end))
    /\ (forall body st p,
          async_fn args = Ret body ->
          asyncio_wait (initial_loop body) sched = Some st ->
          system_exit_signum st <> None ->
          coro_task_of (async_fn_coro st) = None ->
          pickle_value (RemoteException (SystemExit SIGTERM)) = Ret p ->
          process_exit_status (run_process pid from_parent sched)
          = Some SIGTERM).
Proof.
  intros pid from_parent sched async_fn args Hpid Hrecv.
  split; [| split].
  - intros v p Hloop Hpickle.
    rewrite (run_process_settled _ _ _ _ _ _ Hpid Hrecv Hloop).
    now rewrite Hpickle.
  - intros e p Hloop Hpickle.
    rewrite (run_process_settled _ _ _ _ _ _ Hpid Hrecv Hloop).
    rewrite Hpickle. destruct e; reflexivity.
  - intros body st p Hfn Hwait Hset Hrunning Hpickle.
    pose proof (run_until_complete_terminated _ _ _ _ _
                  Hfn Hwait Hset Hrunning) as Hloop.
    rewrite (run_process_settled _ _ _ _ _ _ Hpid Hrecv Hloop).
    now rewrite Hpickle.
Qed.

(** C10: when the task completes normally but encoding its result
    raises, STOPPING is the last message written, no FINISHED message is
    written, and the process ends on the unbound [finished_payload],
    with status 1, not 0. *)
Theorem unencodable_result_writes_no_finished :
  forall pid from_parent sched async_fn args v e,
    0 <= pid < 2 ^ 32 ->
    receive_pickled_value from_parent = Ret (async_fn, args) ->
    run_until_complete async_fn args sched = Some (Ret v) ->
    pickle_value (Result v) = Raise e ->
    run_process pid from_parent sched =
    (booted pid ++ [Msg STOPPING []],
     Some (UnboundLocalError "finished_payload"))
    /\ finished_messages (fst (run_process pid from_parent sched)) = []
    /\ process_exit_status (run_process pid from_parent sched) = Some 1.
Proof.
  intros pid from_parent sched async_fn args v e Hpid Hrecv Hloop Hpickle.
  rewrite (run_process_settled _ _ _ _ _ _ Hpid Hrecv Hloop), Hpickle.
  repeat split.
Qed.

(** ** The shape of the stream *)

Lemma run_process_stream pid from_parent sched :
  exists b,
    fst (run_process pid from_parent sched) = []
    \/ fst (run_process pid from_parent sched) =
       [Msg INITIALIZED b; Msg WAIT_EXEC_DATA []]
    \/ fst (run_process pid from_parent sched) =
       [Msg INITIALIZED b; Msg WAIT_EXEC_DATA []; Msg BOOTING [];
        Msg STARTED []; Msg EXECUTING []]
    \/ fst (run_process pid from_parent sched) =
       [Msg INITIALIZED b; Msg WAIT_EXEC_DATA []; Msg BOOTING [];
        Msg STARTED []; Msg EXECUTING []; Msg STOPPING []]
    \/ exists p,
        fst (run_process pid from_parent sched) =
        [Msg INITIALIZED b; Msg WAIT_EXEC_DATA []; Msg BOOTING [];
         Msg STARTED []; Msg EXECUTING []; Msg STOPPING [];
         Msg FINISHED p].
Proof.
  unfold _run_process, update_state_initialized.
  destruct (to_bytes pid 4) as [b | e]; [exists b | exists []; now left].
  destruct (receive_pickled_value from_parent) as [[async_fn args] | e];
    [| right; now left].
  rewrite _do_async_fn_split.
  destruct (run_until_complete async_fn args sched) as [[v | e] |];
    [| | right; right; now left].
  - destruct (pickle_value (Result v)) as [p | e'].
    + right; right; right; right. now exists p.
    + right; right; right; now left.
  - destruct (pickle_value (RemoteException e)) as [p | e'].
    + right; right; right; right. now exists p.
    + right; right; right; now left.
Qed.

(** C8: in every run at most one FINISHED message is written, every
    FINISHED message comes after a STOPPING message, and STOPPING is
    written on every path on which the loop has settled: a result, a
    failure, an unhandled interrupt or a forced exit. *)
Theorem stopping_before_single_finished :
  forall pid from_parent sched,
    (List.length (finished_messages (fst (run_process pid from_parent sched)))
     <= 1)%nat
    /\ (forall i p,
          nth_error (fst (run_process pid from_parent sched)) i
          = Some (Msg FINISHED p) ->
          exists j,
            (j < i)%nat
            /\ nth_error (fst (run_process pid from_parent sched)) j
               = Some (Msg STOPPING []))
    /\ (forall async_fn args,
          0 <= pid < 2 ^ 32 ->
          receive_pickled_value from_parent = Ret (async_fn, args) ->
          run_until_complete async_fn args sched <> None ->
          In (Msg STOPPING [])
             (fst (run_process pid from_parent sched))).
Proof.
  intros pid from_parent sched. split; [| split].
  - destruct (run_process_stream pid from_parent sched)
      as [b [H | [H | [H | [H | [p H]]]]]]; rewrite H; cbn; lia.
  - intros i p0 Hi.
    destruct (run_process_stream pid from_parent sched)
      as [b [H | [H | [H | [H | [p H]]]]]]; rewrite H in *;
      do 7 (destruct i as [| i]; [try discriminate Hi |]);
      try (destruct i; discriminate Hi).
    exists 5%nat. split; [lia | reflexivity].
  - intros async_fn args Hpid Hrecv Hloop.
    destruct (run_until_complete async_fn args sched) as [r |] eqn:Hr;
      [| contradiction].
    rewrite (run_process_settled _ _ _ _ _ _ Hpid Hrecv Hr).
    destruct r as [v | e];
      [destruct (pickle_value (Result v))
      | destruct (pickle_value (RemoteException e))];
      cbn; auto 10.
Qed.

(** ** SIGINT *)

(** C9: when the round in which SIGINT is delivered is also the one in
    which the coroutine ends, [_handle_coro] takes the result or failure
    of the coroutine as it is: nothing is thrown into it, and the flag is
    left set. *)
Theorem completed_task_beats_interrupt :
  forall (st : loop_state value) (rd : round) r,
    async_fn_task st = None ->
    coro_task_of (send (async_fn_coro st)) = Some r ->
    sigint rd = true ->
    async_fn_task (run_once st rd) = Some r
    /\ async_fn_coro (run_once st rd) = send (async_fn_coro st)
    /\ got_SIGINT (run_once st rd) = true
    /\ _handle_coro (send (async_fn_coro st)) true =
       (send (async_fn_coro st), true, Some r).
Proof.
  intros st rd r Hpending Hdone Hint.
  unfold run_once. rewrite Hpending, Hint, orb_true_r.
  rewrite (_handle_coro_done _ true r Hdone). cbn. auto.
Qed.


Lemma swallows_le (res : result value) (n m : nat) (c : Coroutine value) :
  swallows res n c -> (n <= m)%nat -> swallows res m c.
Proof.
  intros H. revert m.
  induction H as [n c Hdone | n resume handler _ IHr _ IHh]; intros m Hle.
  - now apply swallows_done.
  - destruct m as [| m]; [lia |].
    apply swallows_await; [apply IHr | apply IHh]; lia.
Qed.

Lemma swallows_scheduled (res : result value) (n : nat)
      (c : Coroutine value) :
  swallows res n c -> thrown_while_scheduled c = c.
Proof.
  intros H. destruct H as [n c Hdone | n resume handler _ _].
  - destruct c; try reflexivity; discriminate Hdone.
  - reflexivity.
Qed.

(** Whatever interrupts are delivered, a task that swallows them all
    completes with its own result. *)
Lemma asyncio_wait_swallows (res : result value) (n : nat) :
  forall (c : Coroutine value) (sched : list round),
    swallows res n (send c) ->
    no_sigterm sched ->
    (n < List.length sched)%nat ->
    exists st,
      asyncio_wait (Loop c false None None) sched = Some st
      /\ async_fn_task st = Some res
      /\ system_exit_signum st = None.
Proof.
  induction n as [| n IH]; intros c sched Hsw Hquiet Hlen;
    (destruct sched as [| rd sched]; [cbn in Hlen; lia |]);
    apply Forall_cons_iff in Hquiet; destruct Hquiet as [Hterm Hquiet];
    cbn [asyncio_wait]; rewrite (run_once_pending _ _ _ Hterm);
    rewrite _handle_coro_cases; cbn [orb];
    remember (send c) as c1 eqn:Hc1; clear Hc1 c.
  - inversion Hsw as [n0 c0 Hdone |]; subst.
    rewrite Hdone. cbn. eauto.
  - inversion Hsw as [n0 c0 Hdone | n0 resume handler Hres Hhan]; subst.
    + rewrite Hdone. cbn. eauto.
    + cbn [coro_task_of throw]. cbn in Hlen.
      rewrite (swallows_scheduled _ _ _ Hhan).
      destruct (sigint rd).
      * inversion Hhan as [n1 c1 Hdone | n1 resume' handler' Hres' Hhan' Hn Hc];
          subst.
        -- rewrite Hdone. cbn. eauto.
        -- cbn.
           apply IH; [| assumption | lia].
           cbn. apply swallows_le with n1; [assumption | lia].
      * cbn. apply IH; [| assumption | lia]. exact Hres.
Qed.

Lemma no_sigterm_without_sigint (sched : list round) :
  no_sigterm sched -> no_sigterm (without_sigint sched).
Proof.
  unfold no_sigterm, without_sigint. intros H.
  apply Forall_map. eapply Forall_impl; [| exact H]. auto.
Qed.

(** X19: for every number [k] of SIGINT deliveries, a task that
    suspends on bare yields only and catches and ignores every injected
    interrupt ends with its normal result: the run is the one of the
    same schedule without the interrupts.  At each arrival
    [_handle_coro] clears the flag, throws [KeyboardInterrupt] into the
    coroutine and goes back to waiting. *)
Theorem ignored_interrupts_leave_the_result :
  forall pid from_parent async_fn args body res n k sched,
    0 <= pid < 2 ^ 32 ->
    receive_pickled_value from_parent = Ret (async_fn, args) ->
    async_fn args = Ret body ->
    swallows res n body ->
    no_sigterm sched ->
    interrupts sched = k ->
    (n < List.length sched)%nat ->
    run_until_complete async_fn args sched = Some res
    /\ run_process pid from_parent sched =
       run_process pid from_parent (without_sigint sched)
    /\ (forall c : Coroutine value,
          coro_task_of c = None ->
          coro_task_of (throw c KeyboardInterrupt) = None ->
          _handle_coro c true = (throw c KeyboardInterrupt, false, None)).
Proof.
  intros pid from_parent async_fn args body res n k sched
         Hpid Hrecv Hfn Hsw Hquiet _ Hlen.
  assert (Hany : forall sched',
             no_sigterm sched' -> (n < List.length sched')%nat ->
             run_until_complete async_fn args sched' = Some res).
  { intros sched' Hquiet' Hlen'.
    destruct (asyncio_wait_swallows res n (new_coroutine body) sched')
      as [st [Hwait [Htask Hsig]]]; try assumption.
    unfold run_until_complete, _do_async_fn. rewrite Hfn.
    unfold new_coroutine in Hwait. unfold new_coroutine.
    rewrite Hwait, Hsig, Htask. reflexivity. }
  split; [| split].
  - now apply Hany.
  - rewrite (run_process_settled _ _ _ _ _ res Hpid Hrecv)
      by now apply Hany.
    rewrite (run_process_settled _ _ _ _ _ res Hpid Hrecv); [reflexivity |].
    apply Hany.
    + now apply no_sigterm_without_sigint.
    + unfold without_sigint. now rewrite length_map.
  - intros c Hpending Hagain.
    rewrite (_handle_coro_interrupt c Hpending). now rewrite Hagain.
Qed.

(** ** SIGTERM in the round in which the task completes *)

(** When both futures are done and the task has returned a value, the
    value is dropped and [SystemExit] is raised. *)
Lemma terminate_beats_returned_value async_fn args body sched st v :
  async_fn args = Ret body ->
  asyncio_wait (initial_loop body) sched = Some st ->
  system_exit_signum st <> None ->
  async_fn_task st = Some (Ret v) ->
  run_until_complete (value := value) async_fn args sched =
  Some (Raise (SystemExit SIGTERM)).
Proof.
  intros Hfn Hwait Hset Hdone.
  assert (Hsig : signum_ok st).
  { apply asyncio_wait_signum with (2 := Hwait). now left. }
  destruct Hsig as [Hnone | Hterm]; [contradiction |].
  unfold run_until_complete, _do_async_fn. rewrite Hfn.
  fold (initial_loop body). rewrite Hwait, Hterm, Hdone. reflexivity.
Qed.

(** When both futures are done and the task has failed, awaiting it in
    [_do_task_cleanup] raises its exception again, and that exception,
    not [SystemExit], leaves [_do_async_fn]. *)
Lemma failure_beats_terminate async_fn args body sched st e :
  async_fn args = Ret body ->
  asyncio_wait (initial_loop body) sched = Some st ->
  system_exit_signum st <> None ->
  async_fn_task st = Some (Raise e) ->
  e <> CancelledError ->
  run_until_complete (value := value) async_fn args sched =
  Some (Raise e).
Proof.
  intros Hfn Hwait Hset Hdone Hne.
  unfold run_until_complete, _do_async_fn. rewrite Hfn.
  fold (initial_loop body). rewrite Hwait, Hdone.
  destruct (system_exit_signum st) as [signum |]; [| contradiction].
  destruct e; try reflexivity. contradiction.
Qed.

(** * Further properties of the module *)

(** ** The pid field *)

Lemma byte_of_Z_value (z : Z) :
  Z.of_N (Byte.to_N (byte_of_Z z)) = z mod 256.
Proof.
  unfold byte_of_Z.
  assert (Hm : 0 <= z mod 256 < 256) by (apply Z.mod_pos_bound; lia).
  destruct (Byte.of_N (Z.to_N (z mod 256))) as [b |] eqn:Hb.
  - apply Byte.to_of_N in Hb. rewrite Hb. lia.
  - apply Byte.of_N_None_iff in Hb. lia.
Qed.

Lemma big_endian_length (len : nat) :
  forall n, List.length (big_endian len n) = len.
Proof.
  induction len as [| len IH]; intros n; cbn [big_endian].
  - reflexivity.
  - rewrite length_app, IH. cbn. lia.
Qed.

Lemma from_bytes_big_endian (len : nat) :
  forall n, from_bytes (big_endian len n) = n mod 256 ^ Z.of_nat len.
Proof.
  induction len as [| len IH]; intros n.
  - cbn. now rewrite Z.mod_1_r.
  - cbn [big_endian]. unfold from_bytes in *.
    rewrite fold_left_app. cbn [fold_left].
    rewrite IH, byte_of_Z_value.
    rewrite Nat2Z.inj_succ, Z.pow_succ_r by lia.
    rewrite Z.rem_mul_r by lia. lia.
Qed.

(** X1: a pid that fits four bytes is written as one INITIALIZED message
    whose payload is four bytes long and reads back, big-endian, as the
    pid; the writes made before are kept. *)
Theorem initialized_payload_reads_back_as_pid :
  forall (to_parent : BinaryIO) pid,
    0 <= pid < 2 ^ 32 ->
    exists pid_bytes,
      update_state_initialized to_parent pid =
      Ret (to_parent ++ [Msg INITIALIZED pid_bytes])
      /\ List.length pid_bytes = 4%nat
      /\ from_bytes pid_bytes = pid.
Proof.
  intros to_parent pid Hpid. exists (big_endian 4 pid).
  unfold update_state_initialized. rewrite (to_bytes_pid pid Hpid).
  split; [reflexivity | split].
  - apply big_endian_length.
  - rewrite from_bytes_big_endian.
    change (256 ^ Z.of_nat 4) with (2 ^ 32). apply Z.mod_small. lia.
Qed.

(** X2: with a pid that is negative or does not fit four bytes, the
    conversion raises [OverflowError] before anything is written: the
    stream stays empty and the process ends with status 1. *)
Theorem pid_out_of_range_writes_nothing :
  forall pid from_parent sched,
    pid < 0 \/ 2 ^ 32 <= pid ->
    (exists msg,
        run_process pid from_parent sched =
        ([], Some (Exception "OverflowError" msg)))
    /\ process_exit_status (run_process pid from_parent sched) = Some 1.
Proof.
  intros pid from_parent sched Hout.
  unfold process_exit_status, _run_process, update_state_initialized,
    to_bytes.
  destruct (Z.ltb_spec pid 0) as [Hneg | Hpos].
  - split; [eexists |]; reflexivity.
  - change (256 ^ Z.of_nat 4) with (2 ^ 32).
    destruct (Z.leb_spec (2 ^ 32) pid) as [Hbig | Hsmall]; [| lia].
    split; [eexists |]; reflexivity.
Qed.

(** ** Task cleanup *)



(** ** The branches marked as not reachable *)

(** X5: the task running [_handle_coro] ends with the exception of the
    branch marked as not reachable only when the coroutine itself raised
    that very exception, on its own or when interrupted. *)
Theorem _handle_coro_never_takes_its_last_branch :
  forall (c : Coroutine value) (flag : bool),
    snd (_handle_coro c flag) = Some (Raise not_reachable) ->
    coro_task_of c = Some (Raise not_reachable)
    \/ coro_task_of (throw c KeyboardInterrupt)
       = Some (Raise not_reachable).
Proof.
  intros c flag. rewrite _handle_coro_cases.
  destruct (coro_task_of c) as [r |]; cbn.
  - intros H. now left.
  - destruct flag; cbn; intros H; [now right | discriminate H].
Qed.

(** X6: [_do_async_fn] raises the exception of its branch marked
    unreachable only when the task function or the task raised that
    very exception. *)
Theorem _do_async_fn_never_takes_its_last_branch :
  forall async_fn args sched,
    run_until_complete (value := value) async_fn args sched
    = Some (Raise unreachable) ->
    async_fn args = Raise unreachable
    \/ exists body st,
        async_fn args = Ret body
        /\ asyncio_wait (initial_loop body) sched = Some st
        /\ async_fn_task st = Some (Raise unreachable).
Proof.
  intros async_fn args sched.
  unfold run_until_complete, _do_async_fn.
  destruct (async_fn args) as [body | e] eqn:Hfn; cbn.
  - fold (initial_loop body).
    destruct (asyncio_wait (initial_loop body) sched) as [st |] eqn:Hwait;
      cbn; [| intros H; discriminate H].
    pose proof (asyncio_wait_woken _ _ _ Hwait) as Hwoken.
    assert (Hstep : in_step st).
    { apply asyncio_wait_in_step with (2 := Hwait). reflexivity. }
    unfold woken in Hwoken. unfold in_step in Hstep.
    destruct (system_exit_signum st) as [signum |].
    + unfold _handle_coro_cancelled. rewrite <- Hstep.
      destruct (async_fn_task st) as [[v | e] |] eqn:Htask; cbn;
        try (intros H; discriminate H).
      destruct e; cbn; intros H; try discriminate H.
      right. exists body, st. repeat split; congruence.
    + destruct (async_fn_task st) as [r |] eqn:Htask; cbn in *;
        [| discriminate Hwoken].
      intros H. right. exists body, st. repeat split; congruence.
  - intros H. left. congruence.
Qed.

(** ** The SIGINT flag *)

Lemma run_once_clears_flag (st : loop_state value) (rd : round) :
  async_fn_task (run_once st rd) = None ->
  got_SIGINT (run_once st rd) = false.
Proof.
  unfold run_once.
  destruct (async_fn_task st) as [r |] eqn:Htask; cbn.
  - intros H; discriminate H.
  - rewrite _handle_coro_cases.
    destruct (coro_task_of (send (async_fn_coro st))) as [r |]; cbn.
    + intros H; discriminate H.
    + destruct (got_SIGINT st || sigint rd); cbn; auto.
Qed.

(** X7: whenever the task is still pending at the end of a round, the
    SIGINT flag is clear: an interrupt that was delivered has been thrown
    into the coroutine in that round and is not delivered again. *)
Theorem pending_task_has_no_interrupt_left :
  forall (body : Coroutine value) (rounds : list round),
    async_fn_task (fold_left run_once rounds (initial_loop body)) = None ->
    got_SIGINT (fold_left run_once rounds (initial_loop body)) = false.
Proof.
  intros body rounds.
  induction rounds as [| rd rounds _] using rev_ind.
  - reflexivity.
  - rewrite fold_left_app. cbn [fold_left]. apply run_once_clears_flag.
Qed.

(** ** Interrupts that are not swallowed *)



(** ** Rounds after the loop has settled *)

Lemma asyncio_wait_extend (sched more : list round) :
  forall st st' : loop_state value,
    asyncio_wait st sched = Some st' ->
    asyncio_wait st (sched ++ more) = Some st'.
Proof.
  induction sched as [| rd sched IH]; intros st st' Hwait;
    cbn [app asyncio_wait] in *.
  - discriminate.
  - destruct (woken (run_once st rd)); [exact Hwait | now apply IH].
Qed.

Lemma run_until_complete_extend async_fn args sched more r :
  run_until_complete (value := value) async_fn args sched = Some r ->
  run_until_complete async_fn args (sched ++ more) = Some r.
Proof.
  unfold run_until_complete, _do_async_fn.
  destruct (async_fn args) as [body | e]; [| auto].
  destruct (asyncio_wait _ sched) as [st |] eqn:Hwait; cbn.
  - now rewrite (asyncio_wait_extend _ more _ _ Hwait).
  - intros H; discriminate H.
Qed.

(** X9: once the loop has settled, what is delivered afterwards has no
    effect: the run over a longer schedule has the same outcome, writes
    the same stream and ends in the same way. *)
Theorem settled_run_ignores_later_rounds :
  forall pid from_parent sched more async_fn args r,
    receive_pickled_value from_parent = Ret (async_fn, args) ->
    run_until_complete async_fn args sched = Some r ->
    run_until_complete async_fn args (sched ++ more) = Some r
    /\ run_process pid from_parent (sched ++ more) =
       run_process pid from_parent sched.
Proof.
  intros pid from_parent sched more async_fn args r Hrecv Hloop.
  pose proof (run_until_complete_extend _ _ _ more _ Hloop) as Hmore.
  split; [exact Hmore |].
  unfold _run_process.
  destruct (update_state_initialized [] pid) as [to_parent | e];
    [| reflexivity].
  now rewrite Hrecv, !_do_async_fn_split, Hloop, Hmore.
Qed.

(** ** A task that has not ended *)

Lemma asyncio_wait_quiet_pending (n : nat) :
  forall c : Coroutine value,
    coro_task_of (resume n c) = None ->
    asyncio_wait (Loop c false None None) (repeat quiet n) = None.
Proof.
  induction n as [| n IH]; intros c Hpending.
  - reflexivity.
  - cbn [repeat asyncio_wait resume] in *.
    rewrite run_once_pending by reflexivity.
    rewrite _handle_coro_cases.
    destruct (coro_task_of (send c)) as [r |] eqn:Hc.
    + rewrite (resume_done n (send c) r Hc) in Hpending. congruence.
    + cbn. now apply IH.
Qed.

(** X10: while the task has not ended and no signal is delivered, the
    worker is blocked in the loop: the stream holds INITIALIZED,
    WAIT_EXEC_DATA, BOOTING, STARTED and EXECUTING only, and neither
    STOPPING nor FINISHED is written before the task settles. *)
Theorem running_task_writes_no_stopping :
  forall pid from_parent async_fn args body n,
    0 <= pid < 2 ^ 32 ->
    receive_pickled_value from_parent = Ret (async_fn, args) ->
    async_fn args = Ret body ->
    coro_task_of (resume n (new_coroutine body)) = None ->
    run_process pid from_parent (repeat quiet n) = (booted pid, None).
Proof.
  intros pid from_parent async_fn args body n Hpid Hrecv Hfn Hpending.
  apply run_process_blocked with async_fn args; try assumption.
  unfold run_until_complete, _do_async_fn. rewrite Hfn.
  now rewrite (asyncio_wait_quiet_pending n _ Hpending).
Qed.

(** ** The order of the states *)

(** X11: in every run the states written are an initial part of
    INITIALIZED, WAIT_EXEC_DATA, BOOTING, STARTED, EXECUTING, STOPPING,
    FINISHED: no state is skipped, repeated or written out of order. *)
Theorem states_follow_the_lifecycle :
  forall pid from_parent sched,
    exists k,
      map tag (fst (run_process pid from_parent sched)) = firstn k lifecycle.
Proof.
  intros pid from_parent sched.
  destruct (run_process_stream pid from_parent sched)
    as [b [H | [H | [H | [H | [p H]]]]]]; rewrite H.
  - now exists 0%nat.
  - now exists 2%nat.
  - now exists 5%nat.
  - now exists 6%nat.
  - now exists 7%nat.
Qed.

(** ** Failures that do not encode *)

(** X12: when the task fails and encoding its [RemoteException] raises
    too, [finished_payload] stays unbound: the stream ends with
    STOPPING, no FINISHED is written and the process ends with status 1,
    whatever the exit code of the failure was. *)
Theorem unencodable_failure_writes_no_finished :
  forall pid from_parent sched async_fn args e e',
    0 <= pid < 2 ^ 32 ->
    receive_pickled_value from_parent = Ret (async_fn, args) ->
    run_until_complete async_fn args sched = Some (Raise e) ->
    pickle_value (RemoteException e) = Raise e' ->
    run_process pid from_parent sched =
    (booted pid ++ [Msg STOPPING []],
     Some (UnboundLocalError "finished_payload"))
    /\ finished_messages (fst (run_process pid from_parent sched)) = []
    /\ process_exit_status (run_process pid from_parent sched) = Some 1.
Proof.
  intros pid from_parent sched async_fn args e e' Hpid Hrecv Hloop Hpickle.
  rewrite (run_process_settled _ _ _ _ _ _ Hpid Hrecv Hloop), Hpickle.
  repeat split.
Qed.

(** ** After FINISHED *)

(** X13: a FINISHED message is the last write of the run, and the run
    ends right after it: the process leaves through [sys.exit], or
    fails on [code] when no handler has bound it; it is never left
    blocked and writes nothing more. *)
Theorem finished_is_the_last_write :
  forall pid from_parent sched p,
    In (Msg FINISHED p)
       (fst (_run_process pickle_value receive_pickled_value
                          pid from_parent sched)) ->
    exists before e,
      _run_process pickle_value receive_pickled_value pid from_parent sched
      = (before ++ [Msg FINISHED p], Some e)
      /\ ((exists code, e = SystemExit code)
          \/ e = UnboundLocalError "code").
Proof.
  intros pid from_parent sched p.
  unfold _run_process, update_state_initialized.
  destruct (to_bytes pid 4) as [b | e]; [| intros []].
  destruct (receive_pickled_value from_parent) as [[async_fn args] | e].
  - rewrite _do_async_fn_split.
    destruct (run_until_complete async_fn args sched) as [[v | e] |].
    + destruct (pickle_value (Result v)) as [q | e']; cbn; intros Hin;
        repeat (destruct Hin as [Hin | Hin]; [try discriminate Hin |]);
        try contradiction.
      injection Hin as <-.
      exists [Msg INITIALIZED b; Msg WAIT_EXEC_DATA []; Msg BOOTING [];
              Msg STARTED []; Msg EXECUTING []; Msg STOPPING []],
             (SystemExit 0).
      split; [reflexivity | left; now exists 0].
    + destruct (pickle_value (RemoteException e)) as [q | e']; cbn;
        intros Hin;
        repeat (destruct Hin as [Hin | Hin]; [try discriminate Hin |]);
        try contradiction.
      injection Hin as <-.
      exists [Msg INITIALIZED b; Msg WAIT_EXEC_DATA []; Msg BOOTING [];
              Msg STARTED []; Msg EXECUTING []; Msg STOPPING []],
             (SystemExit (code_of e)).
      split; [reflexivity | left; now exists (code_of e)].
    + cbn. intros Hin.
      repeat (destruct Hin as [Hin | Hin]; [try discriminate Hin |]);
        contradiction.
  - cbn. intros Hin.
    repeat (destruct Hin as [Hin | Hin]; [try discriminate Hin |]);
      contradiction.
Qed.

(** ** SIGTERM together with the end of the task, on the whole run *)

(** X14: when SIGTERM is delivered by the time [_do_async_fn] is resumed
    with a task that has returned a value, the value is dropped: the
    worker reports the [SystemExit] in FINISHED and exits with the
    number of the signal. *)
Theorem sigterm_drops_a_returned_value :
  forall pid from_parent sched async_fn args body st v p,
    0 <= pid < 2 ^ 32 ->
    receive_pickled_value from_parent = Ret (async_fn, args) ->
    async_fn args = Ret body ->
    asyncio_wait (initial_loop body) sched = Some st ->
    system_exit_signum st <> None ->
    async_fn_task st = Some (Ret v) ->
    pickle_value (RemoteException (SystemExit SIGTERM)) = Ret p ->
    run_process pid from_parent sched =
    (booted pid ++ [Msg STOPPING []; Msg FINISHED p],
     Some (SystemExit SIGTERM)).
Proof.
  intros pid from_parent sched async_fn args body st v p
         Hpid Hrecv Hfn Hwait Hset Hdone Hpickle.
  pose proof (terminate_beats_returned_value _ _ _ _ _ _
                Hfn Hwait Hset Hdone) as Hloop.
  rewrite (run_process_settled _ _ _ _ _ _ Hpid Hrecv Hloop).
  now rewrite Hpickle.
Qed.

(** X15: when SIGTERM is delivered by the time [_do_async_fn] is resumed
    with a task that has failed with [e], other than [CancelledError],
    the failure is what the worker reports: FINISHED carries the
    [RemoteException] of [e] and the exit code is the one of [e], not
    the number of the signal. *)
Theorem sigterm_does_not_hide_a_failure :
  forall pid from_parent sched async_fn args body st e p,
    0 <= pid < 2 ^ 32 ->
    receive_pickled_value from_parent = Ret (async_fn, args) ->
    async_fn args = Ret body ->
    asyncio_wait (initial_loop body) sched = Some st ->
    system_exit_signum st <> None ->
    async_fn_task st = Some (Raise e) ->
    e <> CancelledError ->
    pickle_value (RemoteException e) = Ret p ->
    run_process pid from_parent sched =
    (booted pid ++ [Msg STOPPING []; Msg FINISHED p],
     Some (SystemExit (code_of e))).
Proof.
  intros pid from_parent sched async_fn args body st e p
         Hpid Hrecv Hfn Hwait Hset Hdone Hne Hpickle.
  pose proof (failure_beats_terminate _ _ _ _ _ _
                Hfn Hwait Hset Hdone Hne) as Hloop.
  rewrite (run_process_settled _ _ _ _ _ _ Hpid Hrecv Hloop).
  now rewrite Hpickle.
Qed.

(** ** A task function that cannot be called *)

(** X16: when calling the task function raises, no round of the loop is
    run and no signal matters: STARTED and EXECUTING are already
    written, and the exception is reported like a failure of the task,
    with STOPPING, FINISHED and its exit code. *)
Theorem failing_call_is_reported :
  forall pid from_parent sched async_fn args e p,
    0 <= pid < 2 ^ 32 ->
    receive_pickled_value from_parent = Ret (async_fn, args) ->
    async_fn args = Raise e ->
    pickle_value (RemoteException e) = Ret p ->
    run_until_complete async_fn args sched = Some (Raise e)
    /\ run_process pid from_parent sched =
       (booted pid ++ [Msg STOPPING []; Msg FINISHED p],
        Some (SystemExit (code_of e))).
Proof.
  intros pid from_parent sched async_fn args e p Hpid Hrecv Hfn Hpickle.
  assert (Hloop : run_until_complete async_fn args sched = Some (Raise e)).
  { unfold run_until_complete, _do_async_fn. now rewrite Hfn. }
  split; [exact Hloop |].
  rewrite (run_process_settled _ _ _ _ _ _ Hpid Hrecv Hloop).
  now rewrite Hpickle.
Qed.

(** ** Exit status 0 *)


(** ** A coroutine its Task no longer resumes *)

Lemma stranded_stays_blocked (handler : exn -> Coroutine value) (n : nat) :
  asyncio_wait (Loop (Stranded handler) false None None) (repeat quiet n)
  = None.
Proof.
  induction n as [| n IH]; [reflexivity |].
  cbn [repeat asyncio_wait].
  rewrite run_once_pending by reflexivity.
  rewrite _handle_coro_cases. cbn. exact IH.
Qed.

(** ** What leaves the worker *)

(** X18: once the descriptor is decoded and the loop is entered, no
    exception of the task leaves [_run_process] as it is, not even
    [KeyboardInterrupt]: what leaves it is raised in the final clause,
    [SystemExit] from [sys.exit] or the [UnboundLocalError] of a local
    that was never bound. *)
Theorem only_the_final_clause_raises :
  forall pid from_parent sched async_fn args e,
    0 <= pid < 2 ^ 32 ->
    receive_pickled_value from_parent = Ret (async_fn, args) ->
    snd (run_process pid from_parent sched) = Some e ->
    (exists code, e = SystemExit code)
    \/ (exists name, e = UnboundLocalError name).
Proof.
  intros pid from_parent sched async_fn args e Hpid Hrecv.
  destruct (run_until_complete async_fn args sched) as [r |] eqn:Hloop.
  - rewrite (run_process_settled _ _ _ _ _ _ Hpid Hrecv Hloop).
    destruct r as [v | e0];
      [destruct (pickle_value (Result v))
      | destruct (pickle_value (RemoteException e0))];
      cbn; intros H; injection H as <-; eauto.
  - rewrite (run_process_blocked _ _ _ _ _ Hpid Hrecv Hloop).
    cbn. intros H; discriminate H.
Qed.

End Properties.

(** * The properties on the example codec and tasks *)

Lemma byte_of_Z_to_N (v : Z) :
  0 <= v < 256 -> Z.of_N (Byte.to_N (byte_of_Z v)) = v.
Proof.
  intros Hv. unfold byte_of_Z. rewrite Z.mod_small by lia.
  destruct (Byte.of_N (Z.to_N v)) as [b |] eqn:Hb.
  - apply Byte.to_of_N in Hb. rewrite Hb. lia.
  - apply Byte.of_N_None_iff in Hb. lia.
Qed.

Lemma example_unpickle_result (v : Z) (p : bytes) :
  Example.pickle_value (Result v) = Ret p ->
  Example.unpickle p = Some (Result v).
Proof.
  unfold Example.pickle_value.
  destruct (Z.leb_spec 0 v) as [Hlo | Hlo]; cbn [andb]; [| discriminate].
  destruct (Z.ltb_spec v 256) as [Hhi | Hhi]; [| discriminate].
  intros Hp. injection Hp as <-. cbn.
  now rewrite byte_of_Z_to_N by lia.
Qed.

Lemma example_stubborn_swallows (n : nat) (v : Z) :
  swallows (Ret v) n (Example.stubborn n v).
Proof.
  induction n as [| n IH]; cbn.
  - now apply swallows_done.
  - now apply swallows_await.
Qed.

(** A task that sleeps twice and returns 7, with no signal. *)
Lemma normal_run_states_in_order_witness :
  Example.run 1234 [x00] (repeat quiet 3 ++ []) =
  ([Msg INITIALIZED [x00; x00; x04; xd2]; Msg WAIT_EXEC_DATA [];
    Msg BOOTING []; Msg STARTED []; Msg EXECUTING [];
    Msg STOPPING []; Msg FINISHED [x00; x07]],
   Some (SystemExit 0))
  /\ Example.unpickle [x00; x07] = Some (Result 7).
Proof.
  apply (normal_run_states_in_order
           Example.pickle_value Example.receive_pickled_value
           Example.unpickle example_unpickle_result
           1234 [x00] (fun _ => Ret (Example.sleeper 2 7)) []
           (Example.sleeper 2 7) 2 7 [x00; x07] []);
    [lia | reflexivity | reflexivity | reflexivity | reflexivity].
Defined.

(** SIGTERM in the first round, while the task sleeps. *)
Lemma terminate_exits_with_signal_after_finished_witness :
  Example.run 1234 [x00] [Round false true] =
  (booted 1234 ++ [Msg STOPPING []; Msg FINISHED [x01; x02; x0f]],
   Some (SystemExit SIGTERM))
  /\ process_exit_status (Example.run 1234 [x00] [Round false true])
     = Some SIGTERM.
Proof.
  apply (terminate_exits_with_signal_after_finished
           Example.pickle_value Example.receive_pickled_value
           1234 [x00] [Round false true]
           (fun _ => Ret (Example.sleeper 2 7)) [] (Example.sleeper 2 7)
           (Loop (Example.sleeper 2 7) false (Some SIGTERM) None)
           [x01; x02; x0f]);
    [lia | reflexivity | reflexivity | reflexivity | discriminate
     | reflexivity | reflexivity].
Defined.

(** C1, as stated, fails: SIGTERM arrives while the task sleeps, the
    terminate future is set and the task is pending when [_do_async_fn]
    is resumed, and a FINISHED message with a payload is written before
    the process exits with the number of the signal. *)
Lemma terminate_writes_finished_payload :
  asyncio_wait (initial_loop (Example.sleeper 2 7)) [Round false true]
  = Some (Loop (Example.sleeper 2 7) false (Some SIGTERM) None)
  /\ finished_messages (fst (Example.run 1234 [x00] [Round false true]))
     = [Msg FINISHED [x01; x02; x0f]]
  /\ process_exit_status (Example.run 1234 [x00] [Round false true])
     = Some SIGTERM.
Proof. repeat split. Qed.

(** A task that raises, and a stream that does not decode. *)
Lemma task_failure_is_reported_witness :
  Example.run 1234 [x03] [quiet] =
  (booted 1234 ++
   [Msg STOPPING [];
    Msg FINISHED (x01 :: x03 :: list_byte_of_string "boom")],
   Some (SystemExit 1))
  /\ Example.run 1234 [] [quiet] =
     ([Msg INITIALIZED [x00; x00; x04; xd2]; Msg WAIT_EXEC_DATA []],
      Some (Exception "EOFError" "Ran out of input")).
Proof.
  assert (Hpid : 0 <= 1234 < 2 ^ 32) by lia.
  split.
  - apply (proj1 (task_failure_is_reported
                    Example.pickle_value Example.receive_pickled_value
                    1234 [x03] [quiet] Hpid)
                 (fun _ => Ret Example.boom) []
                 (Exception "ValueError" "boom")
                 (x01 :: x03 :: list_byte_of_string "boom"));
      reflexivity.
  - apply (proj2 (task_failure_is_reported
                    Example.pickle_value Example.receive_pickled_value
                    1234 [] [quiet] Hpid)
                 (Exception "EOFError" "Ran out of input"));
      reflexivity.
Defined.

(** C2, as stated, fails: when the descriptor does not decode, the
    exception leaves [_run_process] after WAIT_EXEC_DATA; neither
    STOPPING nor FINISHED is written. *)
Lemma decode_failure_is_not_reported :
  Example.receive_pickled_value []
  = Raise (Exception "EOFError" "Ran out of input")
  /\ Example.run 1234 [] [quiet] =
     ([Msg INITIALIZED [x00; x00; x04; xd2]; Msg WAIT_EXEC_DATA []],
      Some (Exception "EOFError" "Ran out of input"))
  /\ ~ In (Msg STOPPING []) (fst (Example.run 1234 [] [quiet]))
  /\ finished_messages (fst (Example.run 1234 [] [quiet])) = [].
Proof.
  repeat split.
  cbn. intros [H | [H | []]]; discriminate H.
Qed.

(** A result, a failure, an uncaught interrupt and SIGTERM. *)
Lemma exit_status_by_outcome_witness :
  process_exit_status (Example.run 1234 [x00] [quiet; quiet; quiet]) = Some 0
  /\ process_exit_status (Example.run 1234 [x03] [quiet]) = Some 1
  /\ process_exit_status (Example.run 1234 [x00] [Round true false]) = Some 2
  /\ process_exit_status (Example.run 1234 [x00] [Round false true])
     = Some SIGTERM.
Proof.
  assert (Hpid : 0 <= 1234 < 2 ^ 32) by lia.
  split; [| split; [| split]].
  - apply (proj1 (exit_status_by_outcome
                    Example.pickle_value Example.receive_pickled_value
                    1234 [x00] [quiet; quiet; quiet]
                    (fun _ => Ret (Example.sleeper 2 7)) [] Hpid eq_refl)
                 7 [x00; x07]);
      reflexivity.
  - apply (proj1 (proj2 (exit_status_by_outcome
                           Example.pickle_value
                           Example.receive_pickled_value
                           1234 [x03] [quiet]
                           (fun _ => Ret Example.boom) [] Hpid eq_refl))
                 (Exception "ValueError" "boom")
                 (x01 :: x03 :: list_byte_of_string "boom"));
      reflexivity.
  - apply (proj1 (proj2 (exit_status_by_outcome
                           Example.pickle_value
                           Example.receive_pickled_value
                           1234 [x00] [Round true false]
                           (fun _ => Ret (Example.sleeper 2 7)) []
                           Hpid eq_refl))
                 KeyboardInterrupt [x01; x00]);
      reflexivity.
  - apply (proj2 (proj2 (exit_status_by_outcome
                           Example.pickle_value
                           Example.receive_pickled_value
                           1234 [x00] [Round false true]
                           (fun _ => Ret (Example.sleeper 2 7)) []
                           Hpid eq_refl))
                 (Example.sleeper 2 7)
                 (Loop (Example.sleeper 2 7) false (Some SIGTERM) None)
                 [x01; x02; x0f]);
      [reflexivity | reflexivity | discriminate | reflexivity
       | reflexivity].
Defined.

(** A task whose result, 1000, the example codec refuses. *)
Lemma unencodable_result_writes_no_finished_witness :
  Example.run 1234 [x04] [quiet; quiet] =
  (booted 1234 ++ [Msg STOPPING []],
   Some (UnboundLocalError "finished_payload"))
  /\ finished_messages (fst (Example.run 1234 [x04] [quiet; quiet])) = []
  /\ process_exit_status (Example.run 1234 [x04] [quiet; quiet]) = Some 1.
Proof.
  apply (unencodable_result_writes_no_finished
           Example.pickle_value Example.receive_pickled_value
           1234 [x04] [quiet; quiet]
           (fun _ => Ret (Example.sleeper 1 1000)) [] 1000
           (Exception "PicklingError" "result does not fit a byte"));
    [lia | reflexivity | reflexivity | reflexivity].
Defined.

(** SIGINT in the round in which the coroutine returns 7. *)
Lemma completed_task_beats_interrupt_witness :
  async_fn_task
    (run_once (Loop (Await (Return 7) Raise_) false None None)
              (Round true false)) = Some (Ret 7)
  /\ async_fn_coro
       (run_once (Loop (Await (Return 7) Raise_) false None None)
                 (Round true false)) = Return 7
  /\ got_SIGINT
       (run_once (Loop (Await (Return 7) Raise_) false None None)
                 (Round true false)) = true
  /\ _handle_coro (Return 7) true = (Return 7, true, Some (Ret 7)).
Proof.
  apply (completed_task_beats_interrupt
           (Loop (Await (Return 7) Raise_) false None None)
           (Round true false) (Ret 7));
    reflexivity.
Defined.


(** Two SIGINTs, in two rounds, each thrown into a task that ignores
    them and returns 7. *)
Lemma ignored_interrupts_leave_the_result_witness :
  run_until_complete
    (fun _ => Ret (Example.stubborn 3 7)) []
    [Round true false; Round true false; quiet; quiet]
  = Some (Ret 7)
  /\ Example.run 1234 [x01]
       [Round true false; Round true false; quiet; quiet]
     = Example.run 1234 [x01]
         (without_sigint
            [Round true false; Round true false; quiet; quiet])
  /\ (forall c : Coroutine Z,
        coro_task_of c = None ->
        coro_task_of (throw c KeyboardInterrupt) = None ->
        _handle_coro c true = (throw c KeyboardInterrupt, false, None)).
Proof.
  apply (ignored_interrupts_leave_the_result
           Example.pickle_value Example.receive_pickled_value
           1234 [x01] (fun _ => Ret (Example.stubborn 3 7)) []
           (Example.stubborn 3 7) (Ret 7) 3 2
           [Round true false; Round true false; quiet; quiet]);
    [lia | reflexivity | reflexivity | apply example_stubborn_swallows
     | repeat constructor | reflexivity | cbn; lia].
Defined.

(** C4 fails on the code: SIGTERM is delivered in the round in which the
    task raises [ValueError("boom")].  Both futures are done when
    [_do_async_fn] is resumed and the terminate branch is taken, but
    awaiting the failed task in [_do_task_cleanup] raises its exception
    again: the process exits with status 1, not with the number of the
    signal. *)
Lemma same_round_failure_exits_with_1 :
  asyncio_wait (initial_loop Example.boom) [Round false true]
  = Some (Loop Example.boom false (Some SIGTERM)
               (Some (Raise (Exception "ValueError" "boom"))))
  /\ run_until_complete (fun _ => Ret Example.boom) [] [Round false true]
     = Some (Raise (Exception "ValueError" "boom"))
  /\ process_exit_status (Example.run 1234 [x03] [Round false true])
     = Some 1
  /\ Some 1 <> Some SIGTERM.
Proof. repeat split. discriminate. Qed.

(** The same round with a task that returns: the value is dropped and
    the exit status is the number of the signal. *)
Lemma same_round_value_exits_with_signal :
  asyncio_wait (initial_loop (Return 7)) [Round false true]
  = Some (Loop (Return 7) false (Some SIGTERM) (Some (Ret 7)))
  /\ run_until_complete (fun _ => Ret (Return 7)) [] [Round false true]
     = Some (Raise (SystemExit SIGTERM)).
Proof. repeat split. Qed.

(** * The further properties on the example codecs and tasks *)

(** The pid 1234. *)
Lemma initialized_payload_reads_back_as_pid_witness :
  exists pid_bytes,
    update_state_initialized [] 1234 =
    Ret ([] ++ [Msg INITIALIZED pid_bytes])
    /\ List.length pid_bytes = 4%nat
    /\ from_bytes pid_bytes = 1234.
Proof.
  apply (initialized_payload_reads_back_as_pid [] 1234); lia.
Defined.

(** The pid 2 ^ 32, one past the largest that fits. *)
Lemma pid_out_of_range_writes_nothing_witness :
  (exists msg,
      Example.run (2 ^ 32) [x00] [quiet] =
      ([], Some (Exception "OverflowError" msg)))
  /\ process_exit_status (Example.run (2 ^ 32) [x00] [quiet]) = Some 1.
Proof.
  apply (pid_out_of_range_writes_nothing
           Example.pickle_value Example.receive_pickled_value
           (2 ^ 32) [x00] [quiet]).
  right. lia.
Defined.


(** A coroutine that raises the exception of the last branch itself. *)
Lemma _handle_coro_never_takes_its_last_branch_witness :
  coro_task_of (@Raise_ Z not_reachable) = Some (Raise not_reachable)
  \/ coro_task_of (throw (@Raise_ Z not_reachable) KeyboardInterrupt)
     = Some (Raise not_reachable).
Proof.
  apply (_handle_coro_never_takes_its_last_branch
           (@Raise_ Z not_reachable) false).
  reflexivity.
Defined.

(** A task function that raises the exception of the last branch. *)
Lemma _do_async_fn_never_takes_its_last_branch_witness :
  (fun _ : list Z => @Raise (Coroutine Z) unreachable) []
  = Raise unreachable
  \/ exists body st,
      (fun _ : list Z => @Raise (Coroutine Z) unreachable) [] = Ret body
      /\ asyncio_wait (initial_loop body) [quiet] = Some st
      /\ async_fn_task st = Some (Raise unreachable).
Proof.
  apply (_do_async_fn_never_takes_its_last_branch
           (fun _ : list Z => @Raise (Coroutine Z) unreachable) [] [quiet]).
  reflexivity.
Defined.

(** SIGINT in the first round, to a task that ignores it. *)
Lemma pending_task_has_no_interrupt_left_witness :
  got_SIGINT (fold_left run_once [Round true false]
                        (initial_loop (Example.stubborn 3 7))) = false.
Proof.
  apply (pending_task_has_no_interrupt_left
           (Example.stubborn 3 7) [Round true false]).
  reflexivity.
Defined.


(** Both signals after the task has returned. *)
Lemma settled_run_ignores_later_rounds_witness :
  run_until_complete (fun _ => Ret (Example.sleeper 2 7)) []
                     ([quiet; quiet; quiet] ++ [Round true true])
  = Some (Ret 7)
  /\ Example.run 1234 [x00] ([quiet; quiet; quiet] ++ [Round true true])
     = Example.run 1234 [x00] [quiet; quiet; quiet].
Proof.
  apply (settled_run_ignores_later_rounds
           Example.pickle_value Example.receive_pickled_value
           1234 [x00] [quiet; quiet; quiet] [Round true true]
           (fun _ => Ret (Example.sleeper 2 7)) [] (Ret 7));
    reflexivity.
Defined.

(** Two quiet rounds of a task that needs three. *)
Lemma running_task_writes_no_stopping_witness :
  Example.run 1234 [x00] (repeat quiet 2) = (booted 1234, None).
Proof.
  apply (running_task_writes_no_stopping
           Example.pickle_value Example.receive_pickled_value
           1234 [x00] (fun _ => Ret (Example.sleeper 2 7)) []
           (Example.sleeper 2 7) 2);
    [lia | reflexivity | reflexivity | reflexivity].
Defined.

(** A task that raises, with the codec that refuses exceptions. *)
Lemma unencodable_failure_writes_no_finished_witness :
  _run_process Strict.pickle_value Example.receive_pickled_value
               1234 [x03] [quiet] =
  (booted 1234 ++ [Msg STOPPING []],
   Some (UnboundLocalError "finished_payload"))
  /\ finished_messages
       (fst (_run_process Strict.pickle_value Example.receive_pickled_value
                          1234 [x03] [quiet])) = []
  /\ process_exit_status
       (_run_process Strict.pickle_value Example.receive_pickled_value
                     1234 [x03] [quiet]) = Some 1.
Proof.
  apply (unencodable_failure_writes_no_finished
           Strict.pickle_value Example.receive_pickled_value
           1234 [x03] [quiet] (fun _ => Ret Example.boom) []
           (Exception "ValueError" "boom")
           (Exception "PicklingError" "exception does not pickle"));
    [lia | reflexivity | reflexivity | reflexivity].
Defined.

(** The FINISHED message of a normal run. *)
Lemma finished_is_the_last_write_witness :
  exists before e,
    Example.run 1234 [x00] [quiet; quiet; quiet] =
    (before ++ [Msg FINISHED [x00; x07]], Some e)
    /\ ((exists code, e = SystemExit code)
        \/ e = UnboundLocalError "code").
Proof.
  apply (finished_is_the_last_write
           Example.pickle_value Example.receive_pickled_value
           1234 [x00] [quiet; quiet; quiet] [x00; x07]).
  cbn. auto 10.
Defined.

(** SIGTERM in the round in which the task returns 7. *)
Lemma sigterm_drops_a_returned_value_witness :
  _run_process Example.pickle_value
               (fun _ => Ret (fun _ => Ret (Return 7), []))
               1234 [] [Round false true] =
  (booted 1234 ++ [Msg STOPPING []; Msg FINISHED [x01; x02; x0f]],
   Some (SystemExit SIGTERM)).
Proof.
  apply (sigterm_drops_a_returned_value
           Example.pickle_value
           (fun _ => Ret (fun _ => Ret (Return 7), []))
           1234 [] [Round false true] (fun _ => Ret (Return 7)) []
           (Return 7)
           (Loop (Return 7) false (Some SIGTERM) (Some (Ret 7)))
           7 [x01; x02; x0f]);
    [lia | reflexivity | reflexivity | reflexivity | discriminate
     | reflexivity | reflexivity].
Defined.

(** SIGTERM in the round in which the task raises. *)
Lemma sigterm_does_not_hide_a_failure_witness :
  Example.run 1234 [x03] [Round false true] =
  (booted 1234 ++
   [Msg STOPPING [];
    Msg FINISHED (x01 :: x03 :: list_byte_of_string "boom")],
   Some (SystemExit (code_of (Exception "ValueError" "boom")))).
Proof.
  apply (sigterm_does_not_hide_a_failure
           Example.pickle_value Example.receive_pickled_value
           1234 [x03] [Round false true] (fun _ => Ret Example.boom) []
           Example.boom
           (Loop Example.boom false (Some SIGTERM)
                 (Some (Raise (Exception "ValueError" "boom"))))
           (Exception "ValueError" "boom")
           (x01 :: x03 :: list_byte_of_string "boom"));
    [lia | reflexivity | reflexivity | reflexivity | discriminate
     | reflexivity | discriminate | reflexivity].
Defined.

(** A task function called with the wrong arguments. *)
Lemma failing_call_is_reported_witness :
  run_until_complete
    (fun _ : list Z =>
       @Raise (Coroutine Z) (Exception "TypeError" "missing argument"))
    [] [Round true true]
  = Some (Raise (Exception "TypeError" "missing argument"))
  /\ Example.run 1234 [x05] [Round true true] =
     (booted 1234 ++
      [Msg STOPPING [];
       Msg FINISHED
           (x01 :: x03 :: list_byte_of_string "missing argument")],
      Some (SystemExit
              (code_of (Exception "TypeError" "missing argument")))).
Proof.
  apply (failing_call_is_reported
           Example.pickle_value Example.receive_pickled_value
           1234 [x05] [Round true true]
           (fun _ : list Z =>
              @Raise (Coroutine Z)
                     (Exception "TypeError" "missing argument"))
           [] (Exception "TypeError" "missing argument")
           (x01 :: x03 :: list_byte_of_string "missing argument"));
    [lia | reflexivity | reflexivity | reflexivity].
Defined.


(** An uncaught [KeyboardInterrupt] leaves through [sys.exit(2)]. *)
Lemma only_the_final_clause_raises_witness :
  (exists code, SystemExit 2 = SystemExit code)
  \/ (exists name, SystemExit 2 = UnboundLocalError name).
Proof.
  apply (only_the_final_clause_raises
           Example.pickle_value Example.receive_pickled_value
           1234 [x00] [Round true false]
           (fun _ => Ret (Example.sleeper 2 7)) [] (SystemExit 2));
    [lia | reflexivity | reflexivity].
Defined.

(** C6 fails on the code for a task that awaits a timer.  With no signal
    the task below sleeps twice and returns 7.  With one SIGINT during
    the first sleep, [_handle_coro] throws [KeyboardInterrupt] into the
    coroutine, which catches it and goes on to its second sleep; the
    Task wrapping the coroutine still waits for the timer of the first
    sleep, which was cancelled, so nothing resumes the coroutine: the
    worker stays blocked after EXECUTING, however long it is given. *)
Lemma swallowed_interrupt_strands_a_sleeping_task :
  Nap.run 1234 (repeat quiet 5) =
  (booted 1234 ++ [Msg STOPPING []; Msg FINISHED [x00; x07]],
   Some (SystemExit 0))
  /\ (forall n,
        Nap.run 1234 ([quiet; Round true false] ++ repeat quiet n)
        = (booted 1234, None)).
Proof.
  split; [reflexivity |].
  intros n.
  apply run_process_blocked
    with (async_fn := fun _ => Ret (Nap.napper 2 7)) (args := []);
    [lia | reflexivity |].
  unfold run_until_complete, _do_async_fn. cbn [snd].
  change (asyncio_wait (Loop (new_coroutine (Nap.napper 2 7)) false None None)
                       ([quiet; Round true false] ++ repeat quiet n))
    with (asyncio_wait (initial_loop (Nap.napper 2 7))
                       ([quiet; Round true false] ++ repeat quiet n)).
  rewrite asyncio_wait_app by reflexivity.
  cbn [fold_left].
  change (run_once (run_once (initial_loop (Nap.napper 2 7)) quiet)
                   (Round true false))
    with (Loop (Stranded
                  (fun e => match e with
                            | KeyboardInterrupt => Nap.napper 0 7
                            | _ => Raise_ e
                            end))
               false None None).
  now rewrite stranded_stays_blocked.
Qed.
